(** * gowiki: a file-backed wiki server (wiki.go)

  Shallow embedding of [wiki.go] and of the parts of the Go standard
  library it calls ([regexp], [unicode/utf8], [io/ioutil], [net/http]),
  followed by the properties of the page store, the title validator, the
  three handlers and the routing wrapper. *)

From Stdlib Require Import ZArith String Ascii List Bool Lia.
From stdpp Require Import gmap strings.

Open Scope string_scope.
Open Scope Z_scope.

(** Go strings are byte sequences: [string] over [ascii] (8-bit) bytes. *)
Definition byteVal (c : ascii) : Z := Z.of_N (N_of_ascii c).

(** [s[n:]] for [n <= len(s)]. *)
Fixpoint dropBytes (n : nat) (s : string) : string :=
match n, s with
| O, _ => s
| S n', String _ s' => dropBytes n' s'
| S _, EmptyString => EmptyString
end.

(** ** unicode/utf8 *)
Module utf8.

Definition RuneError : Z := 0xFFFD.
Definition RuneSelf : Z := 0x80.

Definition maskx : Z := 0x3F.
Definition mask2 : Z := 0x1F.
Definition mask3 : Z := 0x0F.
Definition mask4 : Z := 0x07.

Definition locb : Z := 0x80.
Definition hicb : Z := 0xBF.

(** Entries of the [first] table: [xx] invalid, [as_] ASCII, otherwise the
    low three bits are the size and the high nibble the accept range. *)
Definition xx : Z := 0xF1.
Definition as_ : Z := 0xF0.
Definition s1 : Z := 0x02.
Definition s2 : Z := 0x13.
Definition s3 : Z := 0x03.
Definition s4 : Z := 0x23.
Definition s5 : Z := 0x34.
Definition s6 : Z := 0x04.
Definition s7 : Z := 0x44.

(** The 256-entry table [first], by ranges of the leading byte. *)
Definition first (b : Z) : Z :=
  if b <? 0x80 then as_
  else if b <? 0xC2 then xx
  else if b <? 0xE0 then s1
  else if b =? 0xE0 then s2
  else if b <? 0xED then s3
  else if b =? 0xED then s4
  else if b <? 0xF0 then s3
  else if b =? 0xF0 then s5
  else if b <? 0xF4 then s6
  else if b =? 0xF4 then s7
  else xx.

Record acceptRange := { lo : Z; hi : Z }.

Definition acceptRanges (i : Z) : acceptRange :=
  match i with
  | 0 => {| lo := locb; hi := hicb |}
  | 1 => {| lo := 0xA0; hi := hicb |}
  | 2 => {| lo := locb; hi := 0x9F |}
  | 3 => {| lo := 0x90; hi := hicb |}
  | 4 => {| lo := locb; hi := 0x8F |}
  | _ => {| lo := 0; hi := 0 |}
  end.

Definition byteAt (s : string) (i : nat) : Z :=
  match String.get i s with
  | Some c => byteVal c
  | None => 0
  end.

(** [DecodeRuneInString(s)]: the first rune of [s] and its width in bytes;
    [(RuneError, 0)] on the empty string, [(RuneError, 1)] on an invalid
    encoding. *)
Definition DecodeRuneInString (s : string) : Z * nat :=
  let n := String.length s in
  if (n <? 1)%nat then (RuneError, 0%nat)
  else
    let b0 := byteAt s 0 in
    let x := first b0 in
    if as_ <=? x then
      (if x =? as_ then b0 else RuneError, 1%nat)
    else
      let sz := Z.land x 7 in
      let accept := acceptRanges (Z.shiftr x 4) in
      if Z.of_nat n <? sz then (RuneError, 1%nat)
      else
        let b1 := byteAt s 1 in
        if (b1 <? lo accept) || (hi accept <? b1) then (RuneError, 1%nat)
        else if sz <=? 2 then
          (Z.lor (Z.shiftl (Z.land b0 mask2) 6) (Z.land b1 maskx), 2%nat)
        else
          let b2 := byteAt s 2 in
          if (b2 <? locb) || (hicb <? b2) then (RuneError, 1%nat)
          else if sz <=? 3 then
            (Z.lor (Z.lor (Z.shiftl (Z.land b0 mask3) 12)
                          (Z.shiftl (Z.land b1 maskx) 6))
                   (Z.land b2 maskx), 3%nat)
          else
            let b3 := byteAt s 3 in
            if (b3 <? locb) || (hicb <? b3) then (RuneError, 1%nat)
            else
              (Z.lor (Z.lor (Z.lor (Z.shiftl (Z.land b0 mask4) 18)
                                   (Z.shiftl (Z.land b1 maskx) 12))
                            (Z.shiftl (Z.land b2 maskx) 6))
                     (Z.land b3 maskx), 4%nat).

End utf8.

(** ** regexp *)
Module regexp.

(** The operators of [regexp/syntax] that a pattern without flags can
    produce for anchors, classes and repetition.  With the default flags
    ([syntax.Perl], which includes [OneLine]) [^] parses to [OpBeginText]
    and [$] to [OpEndText]. *)
Inductive Regexp : Type :=
| OpEmptyMatch
| OpLiteral (r : Z)
| OpCharClass (ranges : list (Z * Z))
| OpBeginText
| OpEndText
| OpStar (sub : Regexp)
| OpPlus (sub : Regexp)
| OpQuest (sub : Regexp)
| OpConcat (sub1 sub2 : Regexp)
| OpAlternate (sub1 sub2 : Regexp).

Definition endOfText : Z := -1.

(** [inputString.step]: the rune at the head of the remaining input and
    its width. *)
Definition step (s : string) : Z * nat :=
  match s with
  | EmptyString => (endOfText, 0%nat)
  | String c _ =>
      if byteVal c <? utf8.RuneSelf then (byteVal c, 1%nat)
      else utf8.DecodeRuneInString s
  end.

Definition inRanges (ranges : list (Z * Z)) (r : Z) : bool :=
  existsb (fun '(lo, hi) => (lo <=? r) && (r <=? hi)) ranges.

(** A continuation receives the position reached and the input left. *)
Definition cont := nat -> string -> bool.

(** One rune tested by [ok], then the continuation. *)
Definition oneRune (ok : Z -> bool) (k : cont) : cont :=
  fun pos s =>
    match s with
    | EmptyString => false
    | _ => let '(r, w) := step s in
           ok r && k (pos + w)%nat (dropBytes w s)
    end.

(** Zero or more iterations of [body]; an iteration that consumes nothing
    is not repeated. *)
Fixpoint starLoop (body : cont -> cont) (k : cont) (fuel : nat) : cont :=
  fun pos s =>
    match fuel with
    | O => k pos s
    | S fuel' =>
        body (fun pos' s' =>
                if (pos <? pos')%nat then starLoop body k fuel' pos' s'
                else false) pos s
        || k pos s
    end.

(** Backtracking matcher: [matchAt re k pos s] holds when [re] matches a
    prefix of [s] (which starts at byte [pos] of the text) and [k] accepts
    what follows. *)
Fixpoint matchAt (re : Regexp) : cont -> cont :=
  match re with
  | OpEmptyMatch => fun k => k
  | OpLiteral r => fun k => oneRune (Z.eqb r) k
  | OpCharClass ranges => fun k => oneRune (inRanges ranges) k
  | OpBeginText => fun k pos s => (pos =? 0)%nat && k pos s
  | OpEndText => fun k pos s =>
      match s with EmptyString => k pos s | _ => false end
  | OpStar sub => fun k pos s =>
      starLoop (matchAt sub) k (String.length s) pos s
  | OpPlus sub => fun k =>
      matchAt sub (fun pos' s' =>
                     starLoop (matchAt sub) k (String.length s') pos' s')
  | OpQuest sub => fun k pos s => matchAt sub k pos s || k pos s
  | OpConcat sub1 sub2 => fun k => matchAt sub1 (matchAt sub2 k)
  | OpAlternate sub1 sub2 => fun k pos s =>
      matchAt sub1 k pos s || matchAt sub2 k pos s
  end.

(** Unanchored search: a match may start at any rune boundary. *)
Fixpoint search (re : Regexp) (fuel : nat) : cont :=
  fun pos s =>
    matchAt re (fun _ _ => true) pos s
    || match fuel, s with
       | S fuel', String _ _ =>
           let w := snd (step s) in
           search re fuel' (pos + w)%nat (dropBytes w s)
       | _, _ => false
       end.

(** [Regexp.MatchString]: whether the text contains any match. *)
Definition MatchString (re : Regexp) (s : string) : bool :=
  search re (String.length s) 0%nat s.

End regexp.

(** ** wiki.go *)

Definition lenPath : nat := String.length "/view/".

(** [regexp.MustCompile("^[a-zA-Z0-9]+$")] *)
Definition titleValidator : regexp.Regexp :=
regexp.OpConcat regexp.OpBeginText
  (regexp.OpConcat
     (regexp.OpPlus
        (regexp.OpCharClass
           [(byteVal "a"%char, byteVal "z"%char);
            (byteVal "A"%char, byteVal "Z"%char);
            (byteVal "0"%char, byteVal "9"%char)]))
     regexp.OpEndText).


(** ** Errors, os and io/ioutil *)

Abbreviation bytes := (list Byte.byte).

Module os.

Inductive Errno : Type := ENOENT | EISDIR.

Definition Errno_Error (e : Errno) : string :=
  match e with
  | ENOENT => "no such file or directory"
  | EISDIR => "is a directory"
  end.

Definition FileMode := Z.

(** An entry of the working directory: a regular file with its content and
    permission bits, or a directory. *)
Inductive node : Type :=
| File (data : bytes) (mode : FileMode)
| Dir.

End os.

(** Go's [error] interface, with the two kinds of value that reach
    [wiki.go]: [*os.PathError] from the file operations and an opaque
    message from any other collaborator. *)
Inductive error : Type :=
| PathError (Op Path : string) (Err : os.Errno)
| errorString (msg : string).

Definition Error (e : error) : string :=
  match e with
  | PathError op path err => op ++ " " ++ path ++ ": " ++ os.Errno_Error err
  | errorString msg => msg
  end.

(** The server's working directory, a flat map from file name to entry.
    The names wiki.go passes are a validated title followed by [.txt], a
    single path component.  The server is taken to have access to the
    entries of its own directory: access checks, the umask, quotas and
    device errors are outside the model, so the failures left are a missing
    file on reading and a directory standing where the file should be. *)
Abbreviation FS := (gmap string os.node).

Module ioutil.

(** [WriteFile(filename, data, perm)]: creates the file with permissions
    [perm] when it does not exist; otherwise truncates it before writing,
    without changing permissions. *)
Definition WriteFile (filename : string) (data : bytes) (perm : os.FileMode)
    (fs : FS) : FS * option error :=
  match fs !! filename with
  | None => (<[filename := os.File data perm]> fs, None)
  | Some (os.File _ mode) => (<[filename := os.File data mode]> fs, None)
  | Some os.Dir => (fs, Some (PathError "open" filename os.EISDIR))
  end.

(** [ReadFile(filename)]: the whole content, or an error. *)
Definition ReadFile (filename : string) (fs : FS) : bytes * option error :=
  match fs !! filename with
  | None => ([], Some (PathError "open" filename os.ENOENT))
  | Some (os.File data _) => (data, None)
  | Some os.Dir => ([], Some (PathError "read" filename os.EISDIR))
  end.

End ioutil.

(** ** net/http *)
Module http.

Definition StatusOK : Z := 200.
Definition StatusFound : Z := 302.
Definition StatusNotFound : Z := 404.
Definition StatusInternalServerError : Z := 500.

Definition StatusText (code : Z) : string :=
  if code =? StatusOK then "OK"
  else if code =? StatusFound then "Found"
  else if code =? StatusNotFound then "Not Found"
  else if code =? StatusInternalServerError then "Internal Server Error"
  else "".

Abbreviation Header := (gmap string (list string)).

(** The fields of [*http.Request] that wiki.go reads: the method,
    [URL.Path], and the parsed form ([url.Values]) behind [FormValue]. *)
Record Request : Type := {
  Method : string;
  Path : string;
  Form : gmap string (list string)
}.

(** [r.FormValue(key)]: the first value for [key], or the empty string. *)
Definition FormValue (r : Request) (key : string) : string :=
  match Form r !! key with
  | Some (v :: _) => v
  | _ => ""
  end.

(** A response being written.  [header] is the map returned by
    [w.Header()]; once the header is written, [status] and [sent] hold what
    went to the client, and later changes to [header] are not seen. *)
Record ResponseWriter : Type := {
  header : Header;
  wroteHeader : bool;
  status : Z;
  sent : Header;
  body : string
}.

Definition newResponse : ResponseWriter :=
  {| header := ∅; wroteHeader := false; status := 0; sent := ∅; body := "" |}.

Definition Header_Set (key value : string) (w : ResponseWriter)
    : ResponseWriter :=
  {| header := <[key := [value]]> (header w);
     wroteHeader := wroteHeader w; status := status w;
     sent := sent w; body := body w |}.

Definition WriteHeader (code : Z) (w : ResponseWriter) : ResponseWriter :=
  if wroteHeader w then w
  else {| header := header w; wroteHeader := true; status := code;
          sent := header w; body := body w |}.

Definition Write (data : string) (w : ResponseWriter) : ResponseWriter :=
  let w := if wroteHeader w then w else WriteHeader StatusOK w in
  {| header := header w; wroteHeader := wroteHeader w; status := status w;
     sent := sent w; body := body w ++ data |}.

Definition newline : string := String "010"%char "".
Definition dquote : string := String "034"%char "".

(** [fmt.Fprintln(w, s)] *)
Definition Fprintln (s : string) (w : ResponseWriter) : ResponseWriter :=
  Write (s ++ newline) w.

(** [http.Error(w, error, code)] *)
Definition Error (w : ResponseWriter) (error : string) (code : Z)
    : ResponseWriter :=
  let w := Header_Set "Content-Type" "text/plain; charset=utf-8" w in
  let w := Header_Set "X-Content-Type-Options" "nosniff" w in
  let w := WriteHeader code w in
  Fprintln error w.

(** [http.NotFound(w, r)] *)
Definition NotFound (w : ResponseWriter) (r : Request) : ResponseWriter :=
  Error w "404 page not found" StatusNotFound.

(** [http.Redirect(w, r, url, code)] for a target that is an absolute path
    in clean form, made of [/] and ASCII letters and digits: the targets
    wiki.go builds from a validated title.  On such a target the rewriting
    that Redirect applies ([path.Clean], [hexEscapeNonASCII], [htmlEscape])
    changes nothing and is left out. *)
Definition Redirect (w : ResponseWriter) (r : Request) (url : string)
    (code : Z) : ResponseWriter :=
  let hadCT := bool_decide (is_Some (header w !! "Content-Type")) in
  let w := Header_Set "Location" url w in
  let w :=
    if negb hadCT && (String.eqb (Method r) "GET" || String.eqb (Method r) "HEAD")
    then Header_Set "Content-Type" "text/html; charset=utf-8" w
    else w in
  let w := WriteHeader code w in
  if negb hadCT && String.eqb (Method r) "GET"
  then Fprintln ("<a href=" ++ dquote ++ url ++ dquote ++ ">"
                 ++ StatusText code ++ "</a>." ++ newline) w
  else w.

(** What the client receives once the handler has returned: a handler that
    never wrote the header gets an implicit [200 OK]. *)
Definition finish (w : ResponseWriter) : ResponseWriter :=
  WriteHeader StatusOK w.

End http.

(** Page represents a wiki page in memory. *)
Record Page : Type := { Title : string; Body : bytes }.

(** The permission argument [0600]: read and write for the owner only. *)
Definition mode0600 : os.FileMode := 6 * 64 + 0 * 8 + 0.

(** Save Page Body to a text file using the Title as the filename. *)
Definition save (p : Page) (fs : FS) : FS * option error :=
  let filename := Title p ++ ".txt" in
  ioutil.WriteFile filename (Body p) mode0600 fs.

(** Load the file into memory and return the Page. *)
Definition loadPage (title : string) (fs : FS) : Page + error :=
  let filename := title ++ ".txt" in
  match ioutil.ReadFile filename fs with
  | (_, Some err) => inr err
  | (body, None) => inl {| Title := title; Body := body |}
  end.

(** The signature of the three handlers: the response under construction,
    the request, the title, and the working directory before and after. *)
Definition handlerFunc : Type :=
  http.ResponseWriter -> http.Request -> string -> FS ->
  http.ResponseWriter * FS.

Section Handlers.

(** The parsed template set, an external collaborator:
    [templates.ExecuteTemplate(w, name, data)] writes to [w] and may fail. *)
Variable ExecuteTemplate :
  http.ResponseWriter -> string -> Page -> http.ResponseWriter * option error.

Definition renderTemplate (w : http.ResponseWriter) (tmpl : string) (p : Page)
    : http.ResponseWriter :=
  match ExecuteTemplate w (tmpl ++ ".html") p with
  | (w, Some err) => http.Error w (Error err) http.StatusInternalServerError
  | (w, None) => w
  end.

(** Handler to view a wiki Page. *)
Definition viewHandler : handlerFunc := fun w r title fs =>
  match loadPage title fs with
  | inr _ => (http.Redirect w r ("/edit/" ++ title) http.StatusFound, fs)
  | inl p => (renderTemplate w "view" p, fs)
  end.

(** Handler to edit a wiki Page. *)
Definition editHandler : handlerFunc := fun w r title fs =>
  let p := match loadPage title fs with
           | inr _ => {| Title := title; Body := [] |}
           | inl p => p
           end in
  (renderTemplate w "edit" p, fs).

(** Handler to save a wiki Page. *)
Definition saveHandler : handlerFunc := fun w r title fs =>
  let body := http.FormValue r "body" in
  let p := {| Title := title; Body := list_byte_of_string body |} in
  match save p fs with
  | (fs, Some err) =>
      (http.Error w (Error err) http.StatusInternalServerError, fs)
  | (fs, None) =>
      (http.Redirect w r ("/view/" ++ title) http.StatusFound, fs)
  end.

(** makeHandler wraps a handler with title extraction and validation.
    [None] is the run-time panic of the slice expression [Path[lenPath:]]
    on a path shorter than [lenPath]. *)
Definition makeHandler (fn : handlerFunc) (w : http.ResponseWriter)
    (r : http.Request) (fs : FS) : option (http.ResponseWriter * FS) :=
  if (String.length (http.Path r) <? lenPath)%nat then None
  else
    let title := dropBytes lenPath (http.Path r) in
    if negb (regexp.MatchString titleValidator title)
    then Some (http.NotFound w r, fs)
    else Some (fn w r title fs).

(** The registrations of [main]: route pattern and wrapped handler. *)
Definition routes : list (string * handlerFunc) :=
  [("/view/", viewHandler); ("/edit/", editHandler); ("/save/", saveHandler)].

End Handlers.

(** * Specification vocabulary *)

(** ** The title validator *)

(** The bytes of the class [[a-zA-Z0-9]]. *)
Definition isAlnum (c : ascii) : Prop :=
  byteVal "a"%char <= byteVal c <= byteVal "z"%char
  \/ byteVal "A"%char <= byteVal c <= byteVal "Z"%char
  \/ byteVal "0"%char <= byteVal c <= byteVal "9"%char.

(** The ranges of the class as they stand in [titleValidator]. *)
Definition alnumRanges : list (Z * Z) :=
  [(byteVal "a"%char, byteVal "z"%char);
   (byteVal "A"%char, byteVal "Z"%char);
   (byteVal "0"%char, byteVal "9"%char)].

(** The class test the matcher applies, on a byte and on a whole string. *)
Definition isAlnumb (c : ascii) : bool :=
  regexp.inRanges alnumRanges (byteVal c).

Fixpoint allAlnumb (s : string) : bool :=
  match s with
  | EmptyString => true
  | String c s' => isAlnumb c && allAlnumb s'
  end.

(** The continuation of [$] at the end of the pattern. *)
Definition atEnd : regexp.cont :=
  regexp.matchAt regexp.OpEndText (fun _ _ => true).

Definition nonEmpty (s : string) : bool :=
  match s with EmptyString => false | String _ _ => true end.

(** The runes of a string, as the matcher steps through them. *)
Fixpoint runesFrom (fuel : nat) (s : string) : list Z :=
  match fuel, s with
  | S fuel', String _ _ =>
      let '(r, w) := regexp.step s in r :: runesFrom fuel' (dropBytes w s)
  | _, _ => []
  end.

Definition runes (s : string) : list Z := runesFrom (String.length s) s.

(** The runes of the class [[a-zA-Z0-9]]. *)
Definition inClass (r : Z) : Prop :=
  byteVal "a"%char <= r <= byteVal "z"%char
  \/ byteVal "A"%char <= r <= byteVal "Z"%char
  \/ byteVal "0"%char <= r <= byteVal "9"%char.

(** A title the validator accepts, as every handler receives it. *)
Definition validTitle (title : string) : Prop :=
  regexp.MatchString titleValidator title = true.

(** ** The page store *)


(** The persisted state layout: every regular file of the directory carries
    the mode [0600] that [save] creates files with. *)
Definition storeLayout (fs : FS) : Prop :=
  forall n data mode, fs !! n = Some (os.File data mode) -> mode = mode0600.

(** ** Handlers *)

(** A template set for the concrete instances: it writes the title, a
    colon and the body, and never fails. *)
Definition echoTemplates (w : http.ResponseWriter) (name : string) (p : Page)
    : http.ResponseWriter * option error :=
  (http.Write (Title p ++ ":" ++ string_of_list_byte (Body p)) w, None).

(** A request with the given method and path and an empty form. *)
Definition bareRequest (method path : string) : http.Request :=
  {| http.Method := method; http.Path := path; http.Form := ∅ |}.



(** * Properties *)

(** ** The title validator *)

Lemma byteVal_range c : 0 <= byteVal c < 256.
Proof.
  unfold byteVal. pose proof (N_ascii_bounded c). lia.
Qed.

Lemma isAlnumb_spec c : isAlnumb c = true <-> isAlnum c.
Proof.
  unfold isAlnumb, isAlnum, alnumRanges, regexp.inRanges. simpl.
  rewrite !orb_true_iff, !andb_true_iff, !Z.leb_le. intuition lia.
Qed.

Lemma allAlnumb_spec s :
  allAlnumb s = true <-> Forall isAlnum (list_ascii_of_string s).
Proof.
  induction s as [|c s IH]; simpl.
  - split; auto.
  - rewrite andb_true_iff, IH, isAlnumb_spec. split.
    + intros [? ?]. constructor; assumption.
    + intros H. inversion H; subst. split; assumption.
Qed.

Lemma inRanges_alnum_high r : 0x80 <= r -> regexp.inRanges alnumRanges r = false.
Proof.
  intros H. unfold regexp.inRanges, alnumRanges, existsb.
  change (byteVal "z"%char) with 122. change (byteVal "Z"%char) with 90.
  change (byteVal "9"%char) with 57.
  assert (H1 : (r <=? 122) = false) by (apply Z.leb_gt; lia).
  assert (H2 : (r <=? 90) = false) by (apply Z.leb_gt; lia).
  assert (H3 : (r <=? 57) = false) by (apply Z.leb_gt; lia).
  rewrite H1, H2, H3, !andb_false_r. reflexivity.
Qed.

Lemma lor_lower a b : 0 <= a -> 0 <= b -> a <= Z.lor a b.
Proof.
  intros Ha Hb. apply Z.ldiff_le.
  - apply Z.lor_nonneg. split; assumption.
  - apply Z.bits_inj'. intros n _.
    rewrite Z.ldiff_spec, Z.lor_spec, Z.bits_0.
    destruct (Z.testbit a n); reflexivity.
Qed.

Lemma lor_ge_l a b m : 0 <= a -> 0 <= b -> m <= a -> m <= Z.lor a b.
Proof. intros Ha Hb Hm. pose proof (lor_lower a b Ha Hb). lia. Qed.

Lemma lor_ge_r a b m : 0 <= a -> 0 <= b -> m <= b -> m <= Z.lor a b.
Proof. intros Ha Hb Hm. rewrite Z.lor_comm. apply lor_ge_l; assumption. Qed.

Lemma byteAt_range s i : 0 <= utf8.byteAt s i < 256.
Proof.
  unfold utf8.byteAt. destruct (String.get i s).
  - apply byteVal_range.
  - lia.
Qed.

(** A lead byte at or above [RuneSelf] continues with the bits of its
    field: masking and shifting are a remainder and a product. *)
Lemma field_bits b mask_bits sh :
  0 <= mask_bits -> 0 <= sh ->
  Z.shiftl (Z.land b (Z.ones mask_bits)) sh = (b mod 2 ^ mask_bits) * 2 ^ sh.
Proof.
  intros Hm Hs. rewrite Z.land_ones by assumption.
  apply Z.shiftl_mul_pow2. assumption.
Qed.

Lemma first_high b :
  0x80 <= b < 256 ->
  utf8.first b = utf8.xx
  \/ (utf8.first b = utf8.s1 /\ 0xC2 <= b < 0xE0)
  \/ (utf8.first b = utf8.s2 /\ b = 0xE0)
  \/ (utf8.first b = utf8.s3 /\ 0xE1 <= b < 0xF0)
  \/ (utf8.first b = utf8.s4 /\ b = 0xED)
  \/ (utf8.first b = utf8.s5 /\ b = 0xF0)
  \/ (utf8.first b = utf8.s6 /\ 0xF1 <= b < 0xF4)
  \/ (utf8.first b = utf8.s7 /\ b = 0xF4).
Proof.
  intros Hb. unfold utf8.first.
  repeat match goal with
         | |- context [?x <? ?y] => destruct (Z.ltb_spec x y)
         | |- context [?x =? ?y] => destruct (Z.eqb_spec x y)
         end; try lia; intuition lia.
Qed.

Lemma lor_bounds a b :
  0 <= a -> 0 <= b -> 0 <= Z.lor a b /\ a <= Z.lor a b /\ b <= Z.lor a b.
Proof.
  intros Ha Hb. split; [apply Z.lor_nonneg; split; assumption|].
  split; [apply lor_ge_l | apply lor_ge_r]; (assumption || lia).
Qed.

(** Reduces the table entry [x] to its size and accept range. *)
Ltac table_entry x :=
  let sz := eval vm_compute in (Z.land x 7) in
  change (Z.land x 7) with sz;
  let lo := eval vm_compute in (utf8.lo (utf8.acceptRanges (Z.shiftr x 4))) in
  change (utf8.lo (utf8.acceptRanges (Z.shiftr x 4))) with lo;
  let hi := eval vm_compute in (utf8.hi (utf8.acceptRanges (Z.shiftr x 4))) in
  change (utf8.hi (utf8.acceptRanges (Z.shiftr x 4))) with hi.

Ltac lor_facts :=
  repeat match goal with
         | |- context [Z.lor ?a ?b] =>
             lazymatch a with
             | context [Z.lor _ _] => fail
             | _ => idtac
             end;
             let v := fresh "v" in
             pose proof (lor_bounds a b);
             set (v := Z.lor a b) in *; clearbody v
         end.

Ltac rune_bound :=
  rewrite ?(field_bits _ 5 6), ?(field_bits _ 4 12), ?(field_bits _ 3 18),
          ?(field_bits _ 6 6), ?(field_bits _ 6 12), ?(Z.land_ones _ 6)
    by lia;
  lor_facts; Z.to_euclidean_division_equations; lia.

Ltac decode_cases :=
  unfold utf8.RuneError, utf8.locb, utf8.hicb;
  repeat match goal with
         | |- context [if ?c then _ else _] =>
             let E := fresh "E" in destruct c eqn:E
         end;
  cbn [fst snd];
  repeat match goal with
         | E : (_ || _) = false |- _ => apply orb_false_iff in E; destruct E
         | E : (_ <? _) = false |- _ => apply Z.ltb_ge in E
         | E : (_ <=? _) = true |- _ => apply Z.leb_le in E
         | E : (_ <=? _) = false |- _ => apply Z.leb_gt in E
         end;
  (split; [|lia]); try lia; rune_bound.

Lemma decode_high s :
  0x80 <= utf8.byteAt s 0 -> (1 <= String.length s)%nat ->
  0x80 <= fst (utf8.DecodeRuneInString s)
  /\ (1 <= snd (utf8.DecodeRuneInString s))%nat.
Proof.
  intros Hb Hn. unfold utf8.DecodeRuneInString.
  destruct (Nat.ltb_spec (String.length s) 1); [lia|].
  pose proof (byteAt_range s 0) as R0.
  pose proof (byteAt_range s 1) as R1.
  pose proof (byteAt_range s 2) as R2.
  pose proof (byteAt_range s 3) as R3.
  set (b0 := utf8.byteAt s 0) in *.
  set (b1 := utf8.byteAt s 1) in *.
  set (b2 := utf8.byteAt s 2) in *.
  set (b3 := utf8.byteAt s 3) in *.
  change utf8.mask2 with (Z.ones 5). change utf8.mask3 with (Z.ones 4).
  change utf8.mask4 with (Z.ones 3). change utf8.maskx with (Z.ones 6).
  destruct (first_high b0) as [Hx|[[Hx Hr]|[[Hx Hr]|[[Hx Hr]|[[Hx Hr]|[[Hx Hr]|[[Hx Hr]|[Hx Hr]]]]]]]];
    [lia| rewrite Hx ..].
  - cbn. split; [unfold utf8.RuneError|]; lia.
  - cbn -[Z.lor Z.land Z.shiftl Z.ones Z.of_nat]. table_entry utf8.s1. decode_cases.
  - cbn -[Z.lor Z.land Z.shiftl Z.ones Z.of_nat]. table_entry utf8.s2. decode_cases.
  - cbn -[Z.lor Z.land Z.shiftl Z.ones Z.of_nat]. table_entry utf8.s3. decode_cases.
  - cbn -[Z.lor Z.land Z.shiftl Z.ones Z.of_nat]. table_entry utf8.s4. decode_cases.
  - cbn -[Z.lor Z.land Z.shiftl Z.ones Z.of_nat]. table_entry utf8.s5. decode_cases.
  - cbn -[Z.lor Z.land Z.shiftl Z.ones Z.of_nat]. table_entry utf8.s6. decode_cases.
  - cbn -[Z.lor Z.land Z.shiftl Z.ones Z.of_nat]. table_entry utf8.s7. decode_cases.
Qed.

Lemma step_ascii c s :
  byteVal c < 0x80 -> regexp.step (String c s) = (byteVal c, 1%nat).
Proof.
  intros H. unfold regexp.step, utf8.RuneSelf.
  destruct (Z.ltb_spec (byteVal c) 0x80); [reflexivity | lia].
Qed.

Lemma step_high c s :
  0x80 <= byteVal c ->
  0x80 <= fst (regexp.step (String c s))
  /\ (1 <= snd (regexp.step (String c s)))%nat.
Proof.
  intros H. unfold regexp.step, utf8.RuneSelf.
  destruct (Z.ltb_spec (byteVal c) 0x80); [lia|].
  apply decode_high; [exact H | simpl; lia].
Qed.

Lemma step_width c s : (1 <= snd (regexp.step (String c s)))%nat.
Proof.
  destruct (Z.lt_ge_cases (byteVal c) 0x80) as [H|H].
  - rewrite step_ascii by assumption. simpl. lia.
  - apply step_high. assumption.
Qed.

Lemma oneRune_alnum k pos c s :
  regexp.oneRune (regexp.inRanges alnumRanges) k pos (String c s)
  = isAlnumb c && k (S pos) s.
Proof.
  unfold regexp.oneRune.
  destruct (Z.lt_ge_cases (byteVal c) 0x80) as [H|H].
  - rewrite step_ascii by assumption. simpl dropBytes.
    rewrite Nat.add_1_r. reflexivity.
  - destruct (step_high c s H) as [Hr _].
    destruct (regexp.step (String c s)) as [r w]. simpl in Hr.
    rewrite (inRanges_alnum_high r Hr).
    unfold isAlnumb. rewrite (inRanges_alnum_high _ H). reflexivity.
Qed.

Lemma starLoop_alnum s : forall fuel pos,
  (String.length s <= fuel)%nat ->
  regexp.starLoop (regexp.matchAt (regexp.OpCharClass alnumRanges))
    atEnd fuel pos s = allAlnumb s.
Proof.
  induction s as [|c s IH]; intros fuel pos Hf.
  - destruct fuel; reflexivity.
  - destruct fuel as [|fuel]; [simpl in Hf; lia|].
    cbn [regexp.starLoop regexp.matchAt allAlnumb].
    rewrite oneRune_alnum.
    destruct (Nat.ltb_spec pos (S pos)); [|lia].
    rewrite IH by (simpl in Hf; lia).
    unfold atEnd. simpl. rewrite orb_false_r. reflexivity.
Qed.

Lemma matchAt_titleValidator pos s :
  regexp.matchAt titleValidator (fun _ _ => true) pos s
  = (pos =? 0)%nat && (nonEmpty s && allAlnumb s).
Proof.
  unfold titleValidator. cbn [regexp.matchAt]. f_equal.
  fold alnumRanges. destruct s as [|c s]; [reflexivity|].
  rewrite oneRune_alnum. cbn [nonEmpty allAlnumb andb]. f_equal.
  apply (starLoop_alnum s (String.length s) (S pos)). lia.
Qed.

Lemma search_titleValidator_later fuel : forall pos s,
  (0 < pos)%nat -> regexp.search titleValidator fuel pos s = false.
Proof.
  induction fuel as [|fuel IH]; intros pos s Hpos;
    cbn [regexp.search]; rewrite matchAt_titleValidator;
    destruct (Nat.eqb_spec pos 0) as [Hz|_]; [lia| |lia|];
    cbn [andb orb]; [reflexivity|].
  destruct s; [reflexivity|]. apply IH. lia.
Qed.

Lemma MatchString_titleValidator s :
  regexp.MatchString titleValidator s = nonEmpty s && allAlnumb s.
Proof.
  unfold regexp.MatchString. destruct s as [|c s]; [reflexivity|].
  cbn [String.length regexp.search]. rewrite matchAt_titleValidator.
  rewrite search_titleValidator_later.
  - cbn [Nat.eqb andb]. apply orb_false_r.
  - pose proof (step_width c s). lia.
Qed.

Lemma allAlnumb_runes s : forall fuel,
  (String.length s <= fuel)%nat ->
  allAlnumb s = true <-> Forall inClass (runesFrom fuel s).
Proof.
  induction s as [|c s IH]; intros fuel Hf.
  - destruct fuel; simpl; split; auto.
  - destruct fuel as [|fuel]; [simpl in Hf; lia|].
    cbn [runesFrom allAlnumb]. rewrite andb_true_iff.
    destruct (Z.lt_ge_cases (byteVal c) 0x80) as [H|H].
    + rewrite step_ascii by assumption. simpl dropBytes.
      rewrite (IH fuel) by (simpl in Hf; lia). rewrite isAlnumb_spec.
      split.
      * intros [? ?]. constructor; assumption.
      * intros HF. inversion HF; subst. split; assumption.
    + destruct (step_high c s H) as [Hr _].
      destruct (regexp.step (String c s)) as [r w]. simpl in Hr.
      split.
      * intros [Hc _]. apply isAlnumb_spec in Hc.
        unfold isAlnum in Hc. change (byteVal "z"%char) with 122 in Hc.
        change (byteVal "Z"%char) with 90 in Hc.
        change (byteVal "9"%char) with 57 in Hc. lia.
      * intros HF. inversion HF as [|? ? Hc _]; subst.
        unfold inClass in Hc. change (byteVal "z"%char) with 122 in Hc.
        change (byteVal "Z"%char) with 90 in Hc.
        change (byteVal "9"%char) with 57 in Hc. lia.
Qed.

Lemma nonEmpty_spec s : nonEmpty s = true <-> s <> "".
Proof. destruct s; simpl; split; congruence. Qed.

(** C2. The title validator accepts a string exactly when it is non-empty
    and every character is in [[a-zA-Z0-9]], whether the characters are
    taken as the bytes of the string or as the runes it decodes to; so it
    accepts every string matching [^[a-zA-Z0-9]+$] and rejects the empty
    string and any string with a character outside the class. *)
Theorem titleValidator_accepts_iff (s : string) :
  (regexp.MatchString titleValidator s = true
   <-> s <> "" /\ Forall isAlnum (list_ascii_of_string s))
  /\ (regexp.MatchString titleValidator s = true
      <-> s <> "" /\ Forall inClass (runes s)).
Proof.
  rewrite MatchString_titleValidator, andb_true_iff, nonEmpty_spec.
  split.
  - rewrite allAlnumb_spec. reflexivity.
  - unfold runes. rewrite (allAlnumb_runes s (String.length s)) by lia.
    reflexivity.
Qed.


(** ** The page store *)

Lemma list_ascii_of_string_app (s t : string) :
  list_ascii_of_string (s ++ t)
  = List.app (list_ascii_of_string s) (list_ascii_of_string t).
Proof.
  induction s as [|c s IH]; simpl; [reflexivity|]. rewrite IH. reflexivity.
Qed.

Lemma string_app_inj_r (s1 s2 t : string) : s1 ++ t = s2 ++ t -> s1 = s2.
Proof.
  intros H. apply (f_equal list_ascii_of_string) in H.
  rewrite !list_ascii_of_string_app in H. apply app_inv_tail in H.
  rewrite <- (string_of_list_ascii_of_string s1),
          <- (string_of_list_ascii_of_string s2).
  congruence.
Qed.

Lemma save_lookup_other p fs n :
  n <> Title p ++ ".txt" -> (save p fs).1 !! n = fs !! n.
Proof.
  intros Hn. unfold save, ioutil.WriteFile.
  destruct (fs !! (Title p ++ ".txt")) as [[old m|]|]; cbn [fst];
    (reflexivity || (apply lookup_insert_ne; congruence)).
Qed.


Lemma save_ok_iff p fs :
  (save p fs).2 = None <-> fs !! (Title p ++ ".txt") <> Some os.Dir.
Proof.
  unfold save, ioutil.WriteFile.
  destruct (fs !! (Title p ++ ".txt")) as [[old m|]|]; cbn [snd];
    split; congruence.
Qed.




Lemma save_storeLayout (p : Page) (fs : FS) :
  storeLayout fs -> storeLayout (save p fs).1.
Proof.
  intros Hfs n data mode. unfold save, ioutil.WriteFile.
  destruct (fs !! (Title p ++ ".txt")) as [[old m|]|] eqn:E; cbn [fst].
  - rewrite lookup_insert. case_decide as Hn.
    + intros H. inversion H; subst. exact (Hfs _ _ _ E).
    + apply Hfs.
  - apply Hfs.
  - rewrite lookup_insert. case_decide as Hn.
    + intros H. inversion H; subst. reflexivity.
    + apply Hfs.
Qed.


(** C9. Idempotence: a second save of the same page returns what the first
    returned and leaves the directory, and so the stored content, exactly as
    the first save left it. *)
Theorem save_idempotent (p : Page) (fs : FS) :
  save p (save p fs).1 = save p fs
  /\ (save p (save p fs).1).1 !! (Title p ++ ".txt")
     = (save p fs).1 !! (Title p ++ ".txt").
Proof.
  assert (H : save p (save p fs).1 = save p fs).
  { unfold save, ioutil.WriteFile.
    destruct (fs !! (Title p ++ ".txt")) as [[old m|]|] eqn:E; cbn [fst].
    - rewrite lookup_insert_eq, insert_insert_eq. reflexivity.
    - rewrite E. reflexivity.
    - rewrite lookup_insert_eq, insert_insert_eq. reflexivity. }
  split; [exact H | rewrite H; reflexivity].
Qed.

Lemma validTitle_alnum (T : string) :
  validTitle T -> T <> "" /\ Forall isAlnum (list_ascii_of_string T).
Proof.
  unfold validTitle. rewrite MatchString_titleValidator, andb_true_iff.
  rewrite nonEmpty_spec, allAlnumb_spec. tauto.
Qed.

Lemma isAlnum_not_special (c : ascii) :
  isAlnum c -> c <> "/"%char /\ c <> "\"%char /\ c <> "."%char.
Proof.
  unfold isAlnum.
  change (byteVal "a"%char) with 97. change (byteVal "z"%char) with 122.
  change (byteVal "A"%char) with 65. change (byteVal "Z"%char) with 90.
  change (byteVal "0"%char) with 48. change (byteVal "9"%char) with 57.
  intros H. repeat split; intros ->; vm_compute in H; intuition congruence.
Qed.

Lemma filename_chars (T : string) :
  list_ascii_of_string (T ++ ".txt")
  = List.app (list_ascii_of_string T)
      ["."%char; "t"%char; "x"%char; "t"%char].
Proof. apply list_ascii_of_string_app. Qed.

Lemma alnum_no_special (l : list ascii) :
  Forall isAlnum l ->
  ~ List.In "/"%char l /\ ~ List.In "\"%char l /\ ~ List.In "."%char l.
Proof.
  intros H. rewrite List.Forall_forall in H.
  repeat split; intros Hin; apply H in Hin;
    apply isAlnum_not_special in Hin; tauto.
Qed.

(** C8. Distinct accepted titles have distinct file names, so a save under
    one title never changes what loading another yields; and the file name
    of an accepted title has no path separator and a single dot, the one of
    its [.txt] extension. *)
Theorem filename_injective_safe (T1 T2 : string) :
  validTitle T1 -> validTitle T2 ->
  (T1 <> T2 -> T1 ++ ".txt" <> T2 ++ ".txt")
  /\ (forall B fs, T1 <> T2 ->
      loadPage T2 (save {| Title := T1; Body := B |} fs).1 = loadPage T2 fs)
  /\ ~ List.In "/"%char (list_ascii_of_string (T1 ++ ".txt"))
  /\ ~ List.In "\"%char (list_ascii_of_string (T1 ++ ".txt"))
  /\ count_occ ascii_dec (list_ascii_of_string (T1 ++ ".txt")) "."%char
     = 1%nat.
Proof.
  intros H1 _.
  assert (Hinj : T1 <> T2 -> T1 ++ ".txt" <> T2 ++ ".txt").
  { intros Hne Heq. apply Hne. exact (string_app_inj_r _ _ _ Heq). }
  destruct (validTitle_alnum T1 H1) as [_ Hall].
  destruct (alnum_no_special _ Hall) as [Hslash [Hback Hdot]].
  split; [exact Hinj|]. split.
  - intros B fs Hne. unfold loadPage, ioutil.ReadFile.
    rewrite save_lookup_other; [reflexivity|].
    cbn [Title]. intros Heq. apply (Hinj Hne). symmetry. exact Heq.
  - rewrite filename_chars. repeat split.
    + rewrite in_app_iff. intros [Hin|Hin]; [tauto|].
      simpl in Hin. intuition discriminate.
    + rewrite in_app_iff. intros [Hin|Hin]; [tauto|].
      simpl in Hin. intuition discriminate.
    + rewrite count_occ_app.
      rewrite (proj1 (count_occ_not_In ascii_dec _ _) Hdot). reflexivity.
Qed.

Lemma filename_injective_safe_witness :
  "Foo" ++ ".txt" <> "Bar" ++ ".txt"
  /\ count_occ ascii_dec (list_ascii_of_string ("Foo" ++ ".txt")) "."%char
     = 1%nat.
Proof.
  assert (V1 : validTitle "Foo") by reflexivity.
  assert (V2 : validTitle "Bar") by reflexivity.
  destruct (filename_injective_safe "Foo" "Bar" V1 V2) as [Hinj [_ [_ [_ Hc]]]].
  split; [apply Hinj; discriminate | exact Hc].
Defined.

(** ** Responses *)

Lemma Error_unwritten (w : http.ResponseWriter) (msg : string) (code : Z) :
  http.wroteHeader w = false ->
  http.status (http.Error w msg code) = code
  /\ http.body (http.Error w msg code) = http.body w ++ msg ++ http.newline
  /\ http.sent (http.Error w msg code) !! "Location"
     = http.header w !! "Location".
Proof.
  intros Hw. unfold http.Error, http.Fprintln, http.Write, http.WriteHeader,
    http.Header_Set.
  cbn [http.wroteHeader http.status http.body http.sent http.header].
  rewrite Hw. cbn [http.wroteHeader http.status http.body http.sent
                   http.header].
  repeat split. rewrite !lookup_insert_ne by discriminate. reflexivity.
Qed.


(** ** The save handler *)



Example saveHandler_directory_500 :
  let out := saveHandler http.newResponse (bareRequest "POST" "/save/Foo")
               "Foo" {["Foo.txt" := os.Dir]} in
  http.status out.1 = 500
  /\ http.body out.1 = "open Foo.txt: is a directory" ++ http.newline
  /\ out.2 = {["Foo.txt" := os.Dir]}.
Proof. vm_compute. repeat split. Qed.

Example saveHandler_hello_302 :
  let r := {| http.Method := "POST"; http.Path := "/save/Foo";
              http.Form := {["body" := ["Hello, world!"]]} |} in
  let out := saveHandler http.newResponse r "Foo" ∅ in
  http.status out.1 = 302
  /\ http.sent out.1 !! "Location" = Some ["/view/Foo"]
  /\ out.2 !! "Foo.txt"
     = Some (os.File (list_byte_of_string "Hello, world!") mode0600).
Proof. vm_compute. repeat split. Qed.

(** ** The view and edit handlers *)


Section HandlerProperties.

Variable ExecuteTemplate :
  http.ResponseWriter -> string -> Page -> http.ResponseWriter * option error.



End HandlerProperties.



(** ** The routing wrapper *)

Lemma length_append (s t : string) :
  String.length (s ++ t) = (String.length s + String.length t)%nat.
Proof.
  induction s as [|c s IH]; simpl; [reflexivity|]. rewrite IH. reflexivity.
Qed.

Lemma dropBytes_append (s t : string) :
  dropBytes (String.length s) (s ++ t) = t.
Proof. induction s as [|c s IH]; simpl; [destruct t; reflexivity | exact IH]. Qed.

Lemma makeHandler_prefix (fn : handlerFunc) (w : http.ResponseWriter)
    (r : http.Request) (fs : FS) (pattern title : string) :
  String.length pattern = lenPath ->
  http.Path r = pattern ++ title ->
  makeHandler fn w r fs
  = if regexp.MatchString titleValidator title
    then Some (fn w r title fs)
    else Some (http.NotFound w r, fs).
Proof.
  intros Hlen Hpath. unfold makeHandler. rewrite Hpath, length_append.
  destruct (Nat.ltb_spec (String.length pattern + String.length title)
              lenPath) as [Hlt|_]; [lia|].
  rewrite <- Hlen, dropBytes_append.
  destruct (regexp.MatchString titleValidator title); reflexivity.
Qed.

Lemma routes_length (ExecuteTemplate :
    http.ResponseWriter -> string -> Page -> http.ResponseWriter * option error)
    (pattern : string) (fn : handlerFunc) :
  List.In (pattern, fn) (routes ExecuteTemplate) ->
  String.length pattern = lenPath.
Proof.
  unfold routes. simpl.
  intros [H|[H|[H|[]]]]; inversion H; reflexivity.
Qed.

(** C6. For each of the three routes registered in [main], a request whose
    path is the route's pattern followed by a title has exactly that title
    extracted by dropping [lenPath] bytes.  If the validator rejects the
    title the response is [404 page not found], the directory is unchanged
    and the outcome is the same whatever handler was wrapped: none is
    invoked.  If the validator accepts the title the outcome is that of the
    route's handler applied to the extracted title. *)
Theorem makeHandler_routes
    (ExecuteTemplate :
       http.ResponseWriter -> string -> Page ->
       http.ResponseWriter * option error)
    (pattern : string) (fn : handlerFunc) (title : string)
    (w : http.ResponseWriter) (r : http.Request) (fs : FS) :
  List.In (pattern, fn) (routes ExecuteTemplate) ->
  http.Path r = pattern ++ title ->
  http.wroteHeader w = false ->
  String.length pattern = lenPath
  /\ dropBytes lenPath (http.Path r) = title
  /\ (regexp.MatchString titleValidator title = false ->
      (forall fn' : handlerFunc,
         makeHandler fn' w r fs = Some (http.NotFound w r, fs))
      /\ http.status (http.NotFound w r) = 404)
  /\ (regexp.MatchString titleValidator title = true ->
      makeHandler fn w r fs = Some (fn w r title fs)).
Proof.
  intros Hin Hpath Hw.
  pose proof (routes_length ExecuteTemplate pattern fn Hin) as Hlen.
  split; [exact Hlen|]. split.
  { rewrite Hpath, <- Hlen. apply dropBytes_append. }
  split.
  - intros Hrej. split.
    + intros fn'. rewrite (makeHandler_prefix fn' w r fs pattern title Hlen Hpath).
      rewrite Hrej. reflexivity.
    + apply (Error_unwritten w "404 page not found" 404 Hw).
  - intros Hacc. rewrite (makeHandler_prefix fn w r fs pattern title Hlen Hpath).
    rewrite Hacc. reflexivity.
Qed.

Lemma makeHandler_routes_witness :
  makeHandler (editHandler echoTemplates) http.newResponse
    (bareRequest "GET" "/edit/bad title!") ∅
  = Some (http.NotFound http.newResponse
            (bareRequest "GET" "/edit/bad title!"), ∅)
  /\ http.status
       (http.NotFound http.newResponse (bareRequest "GET" "/edit/bad title!"))
     = 404.
Proof.
  assert (Hin : List.In ("/edit/", editHandler echoTemplates)
                  (routes echoTemplates)) by (right; left; reflexivity).
  assert (Hpath : http.Path (bareRequest "GET" "/edit/bad title!")
                  = "/edit/" ++ "bad title!") by reflexivity.
  assert (Hw : http.wroteHeader http.newResponse = false) by reflexivity.
  destruct (makeHandler_routes echoTemplates "/edit/"
              (editHandler echoTemplates) "bad title!" http.newResponse
              (bareRequest "GET" "/edit/bad title!") ∅ Hin Hpath Hw)
    as [_ [_ [Hrej _]]].
  destruct (Hrej eq_refl) as [Hany Hst].
  split; [apply Hany | exact Hst].
Defined.

Example makeHandler_short_path_panics :
  makeHandler saveHandler http.newResponse (bareRequest "GET" "/view") ∅
  = None.
Proof. reflexivity. Qed.

(** The scenarios of a first visit: saving [Hello, world!] under [Foo] and
    viewing it, viewing a page that does not exist, and a title outside the
    alphabet. *)
Example scenario_save_then_view :
  let post := {| http.Method := "POST"; http.Path := "/save/Foo";
                 http.Form := {["body" := ["Hello, world!"]]} |} in
  exists w1 fs1 w2 fs2,
    makeHandler saveHandler http.newResponse post ∅ = Some (w1, fs1)
    /\ http.status w1 = 302
    /\ http.sent w1 !! "Location" = Some ["/view/Foo"]
    /\ fs1 !! "Foo.txt"
       = Some (os.File (list_byte_of_string "Hello, world!") mode0600)
    /\ makeHandler (viewHandler echoTemplates) http.newResponse
         (bareRequest "GET" "/view/Foo") fs1 = Some (w2, fs2)
    /\ http.status w2 = 200
    /\ http.body w2 = "Foo:Hello, world!"
    /\ fs2 = fs1.
Proof.
  do 4 eexists. split; [vm_compute; reflexivity|].
  vm_compute. repeat split.
Qed.

Example scenario_view_missing :
  exists w,
    makeHandler (viewHandler echoTemplates) http.newResponse
      (bareRequest "GET" "/view/Missing") ∅ = Some (w, ∅)
    /\ http.status w = 302
    /\ http.sent w !! "Location" = Some ["/edit/Missing"].
Proof. eexists. split; [vm_compute; reflexivity|]. vm_compute. auto. Qed.

Example scenario_bad_title :
  exists w,
    makeHandler (editHandler echoTemplates) http.newResponse
      (bareRequest "GET" "/edit/bad title!") ∅ = Some (w, ∅)
    /\ http.status w = 404
    /\ http.body w = "404 page not found" ++ http.newline.
Proof. eexists. split; [vm_compute; reflexivity|]. vm_compute. auto. Qed.

(** ** Saving without a body field *)





(** * Further properties of wiki.go *)

(** ** The wrapper on arbitrary paths *)

Lemma makeHandler_long (fn : handlerFunc) (w : http.ResponseWriter)
    (r : http.Request) (fs : FS) :
  (lenPath <= String.length (http.Path r))%nat ->
  makeHandler fn w r fs
  = if regexp.MatchString titleValidator (dropBytes lenPath (http.Path r))
    then Some (fn w r (dropBytes lenPath (http.Path r)) fs)
    else Some (http.NotFound w r, fs).
Proof.
  intros Hlen. unfold makeHandler.
  destruct (Nat.ltb_spec (String.length (http.Path r)) lenPath); [lia|].
  destruct (regexp.MatchString titleValidator _); reflexivity.
Qed.

Lemma dropBytes_length (n : nat) : forall s : string,
  String.length (dropBytes n s) = (String.length s - n)%nat.
Proof.
  induction n as [|n IH]; intros [|c s]; simpl; try reflexivity.
  apply IH.
Qed.

(** X1. The wrapper panics exactly on a path shorter than [lenPath]; on any
    other path it produces a response, and the title it extracts is the
    path without its first [lenPath] bytes, whatever those bytes are. *)
Theorem makeHandler_panics_iff_short (fn : handlerFunc)
    (w : http.ResponseWriter) (r : http.Request) (fs : FS) :
  (makeHandler fn w r fs = None
   <-> (String.length (http.Path r) < lenPath)%nat)
  /\ ((lenPath <= String.length (http.Path r))%nat ->
      String.length (dropBytes lenPath (http.Path r))
      = (String.length (http.Path r) - lenPath)%nat
      /\ (makeHandler fn w r fs = Some (http.NotFound w r, fs)
          \/ makeHandler fn w r fs
             = Some (fn w r (dropBytes lenPath (http.Path r)) fs))).
Proof.
  split.
  - unfold makeHandler.
    destruct (Nat.ltb_spec (String.length (http.Path r)) lenPath) as [H|H].
    + split; [intros _; exact H | reflexivity].
    + split; [|lia].
      destruct (negb (regexp.MatchString titleValidator _)); discriminate.
  - intros Hlen. split; [apply dropBytes_length|].
    rewrite (makeHandler_long fn w r fs Hlen).
    destruct (regexp.MatchString titleValidator _); [right | left];
      reflexivity.
Qed.

Lemma allAlnumb_false (s : string) (c : ascii) :
  List.In c (list_ascii_of_string s) -> ~ isAlnum c -> allAlnumb s = false.
Proof.
  intros Hin Hc. destruct (allAlnumb s) eqn:E; [|reflexivity].
  apply allAlnumb_spec in E. rewrite List.Forall_forall in E.
  exfalso. exact (Hc (E c Hin)).
Qed.

(** X2. Whatever handler is wrapped, a path whose part after the first
    [lenPath] bytes is empty or holds a byte outside [[a-zA-Z0-9]] (a
    slash, a dot, a space, a non-ASCII byte) is answered [404] with the
    directory untouched: no file name is ever built from such a title. *)
Theorem makeHandler_rejects_unsafe (fn : handlerFunc)
    (w : http.ResponseWriter) (r : http.Request) (fs : FS) :
  (lenPath <= String.length (http.Path r))%nat ->
  (dropBytes lenPath (http.Path r) = ""
   \/ exists c, List.In c (list_ascii_of_string
                             (dropBytes lenPath (http.Path r)))
                /\ ~ isAlnum c) ->
  makeHandler fn w r fs = Some (http.NotFound w r, fs).
Proof.
  intros Hlen Hbad. rewrite (makeHandler_long fn w r fs Hlen).
  rewrite MatchString_titleValidator.
  destruct Hbad as [Hempty|[c [Hin Hc]]].
  - rewrite Hempty. reflexivity.
  - rewrite (allAlnumb_false _ c Hin Hc), andb_false_r. reflexivity.
Qed.

Lemma makeHandler_rejects_unsafe_witness :
  makeHandler saveHandler http.newResponse
    (bareRequest "POST" "/save/../etc/passwd")
    {["passwd.txt" := os.File [] mode0600]}
  = Some (http.NotFound http.newResponse
            (bareRequest "POST" "/save/../etc/passwd"),
          {["passwd.txt" := os.File [] mode0600]}).
Proof.
  apply (makeHandler_rejects_unsafe saveHandler http.newResponse
           (bareRequest "POST" "/save/../etc/passwd")).
  - simpl. unfold lenPath. simpl. lia.
  - right. exists "."%char. split.
    + simpl. left. reflexivity.
    + unfold isAlnum. vm_compute. intuition congruence.
Defined.

(** ** The store under repeated and mixed saves *)





(** X4. The last write wins: a save that follows a save under the same
    title returns what it would have returned alone and leaves the
    directory it would have left alone, whatever the first body was. *)
Theorem save_last_write_wins (p1 p2 : Page) (fs : FS) :
  Title p1 = Title p2 -> save p2 (save p1 fs).1 = save p2 fs.
Proof.
  intros Ht. unfold save, ioutil.WriteFile. rewrite Ht.
  destruct (fs !! (Title p2 ++ ".txt")) as [[old m|]|] eqn:E; cbn [fst].
  - rewrite lookup_insert_eq, insert_insert_eq. reflexivity.
  - rewrite E. reflexivity.
  - rewrite lookup_insert_eq, insert_insert_eq. reflexivity.
Qed.

Lemma save_last_write_wins_witness :
  save {| Title := "Foo"; Body := list_byte_of_string "second" |}
    (save {| Title := "Foo"; Body := list_byte_of_string "first" |} ∅).1
  = save {| Title := "Foo"; Body := list_byte_of_string "second" |} ∅.
Proof.
  apply (save_last_write_wins
           {| Title := "Foo"; Body := list_byte_of_string "first" |}
           {| Title := "Foo"; Body := list_byte_of_string "second" |} ∅).
  reflexivity.
Defined.




(** ** What the routes do to the directory *)

Lemma save_dom (p : Page) (fs : FS) (n : string) :
  is_Some (fs !! n) -> is_Some ((save p fs).1 !! n).
Proof.
  intros Hn. destruct (decide (n = Title p ++ ".txt")) as [->|Hne].
  - unfold save, ioutil.WriteFile.
    destruct (fs !! (Title p ++ ".txt")) as [[old m|]|] eqn:E; cbn [fst].
    + rewrite lookup_insert_eq. eauto.
    + rewrite E. eauto.
    + destruct Hn as [x Hx]. discriminate.
  - rewrite save_lookup_other by exact Hne. exact Hn.
Qed.

Lemma saveHandler_fs (w : http.ResponseWriter) (r : http.Request)
    (title : string) (fs : FS) :
  (saveHandler w r title fs).2
  = (save {| Title := title;
             Body := list_byte_of_string (http.FormValue r "body") |} fs).1.
Proof.
  unfold saveHandler. destruct (save _ fs) as [fs' [err|]]; reflexivity.
Qed.

Section RouteProperties.

Variable ExecuteTemplate :
  http.ResponseWriter -> string -> Page -> http.ResponseWriter * option error.

(** X6. The view and edit routes are read-only: whatever the request and
    whatever the templates do, a response from either leaves the directory
    exactly as it was. *)
Theorem view_edit_readonly (w w' : http.ResponseWriter) (r : http.Request)
    (fs fs' : FS) :
  makeHandler (viewHandler ExecuteTemplate) w r fs = Some (w', fs')
  \/ makeHandler (editHandler ExecuteTemplate) w r fs = Some (w', fs') ->
  fs' = fs.
Proof.
  unfold makeHandler.
  generalize (dropBytes lenPath (http.Path r)). intros title.
  destruct (String.length (http.Path r) <? lenPath)%nat;
    [intros [H|H]; discriminate|].
  destruct (negb (regexp.MatchString titleValidator title)).
  - intros [H|H]; inversion H; reflexivity.
  - intros [H|H]; apply (f_equal (option_map snd)) in H; cbn [option_map] in H.
    + unfold viewHandler in H.
      destruct (loadPage title fs); cbn [snd] in H; congruence.
    + unfold editHandler in H. cbn [snd] in H. congruence.
Qed.

(** X7. The save route touches one file only: every entry other than the
    extracted title's [.txt] file is as before, no entry disappears, and a
    directory whose files all have mode [0600] stays so. *)
Theorem save_route_footprint (w w' : http.ResponseWriter) (r : http.Request)
    (fs fs' : FS) :
  makeHandler saveHandler w r fs = Some (w', fs') ->
  (forall n, n <> dropBytes lenPath (http.Path r) ++ ".txt" ->
             fs' !! n = fs !! n)
  /\ (forall n, is_Some (fs !! n) -> is_Some (fs' !! n))
  /\ (storeLayout fs -> storeLayout fs').
Proof.
  unfold makeHandler.
  generalize (dropBytes lenPath (http.Path r)). intros title.
  destruct (String.length (http.Path r) <? lenPath)%nat; [discriminate|].
  destruct (negb (regexp.MatchString titleValidator title)); intros H.
  - inversion H; subst. auto.
  - assert (Hfs : fs' = (saveHandler w r title fs).2)
      by (apply (f_equal (option_map snd)) in H; cbn [option_map snd] in H;
          congruence).
    rewrite saveHandler_fs in Hfs. subst fs'. split; [|split].
    + intros n Hn. apply save_lookup_other. exact Hn.
    + intros n. apply save_dom.
    + apply save_storeLayout.
Qed.

End RouteProperties.

Lemma view_edit_readonly_witness :
  ({["Foo.txt" := os.File (list_byte_of_string "text") mode0600]} : FS)
  = {["Foo.txt" := os.File (list_byte_of_string "text") mode0600]}.
Proof.
  apply (view_edit_readonly echoTemplates http.newResponse
           (renderTemplate echoTemplates http.newResponse "view"
              {| Title := "Foo"; Body := list_byte_of_string "text" |})
           (bareRequest "GET" "/view/Foo")).
  left. reflexivity.
Defined.

Lemma save_route_footprint_witness :
  (<["Foo.txt" := os.File [] mode0600]>
     ({["Bar.txt" := os.File (list_byte_of_string "bar") mode0600]} : FS))
    !! "Bar.txt"
  = ({["Bar.txt" := os.File (list_byte_of_string "bar") mode0600]} : FS)
      !! "Bar.txt".
Proof.
  assert (H : makeHandler saveHandler http.newResponse
                (bareRequest "POST" "/save/Foo")
                {["Bar.txt" := os.File (list_byte_of_string "bar") mode0600]}
              = Some (http.Redirect http.newResponse
                        (bareRequest "POST" "/save/Foo") "/view/Foo"
                        http.StatusFound,
                      <["Foo.txt" := os.File [] mode0600]>
                        {["Bar.txt" := os.File (list_byte_of_string "bar")
                                        mode0600]}))
    by reflexivity.
  destruct (save_route_footprint _ _ _ _ _ H) as [Hother _].
  apply Hother. discriminate.
Defined.

(** ** Status codes and redirects *)






Section RedirectProperties.

Variable ExecuteTemplate :
  http.ResponseWriter -> string -> Page -> http.ResponseWriter * option error.



(** X11. What a failing template leaves behind: if it fails before writing
    anything the response is [500] with the error's description as its
    body; if it fails after output has gone out, the status and headers
    already sent stand and the description is appended to that output.  A
    template that succeeds is passed through untouched. *)
Theorem renderTemplate_outcome (w : http.ResponseWriter) (tmpl : string)
    (p : Page) :
  let out := ExecuteTemplate w (tmpl ++ ".html") p in
  let w' := renderTemplate ExecuteTemplate w tmpl p in
  match out.2 with
  | None => w' = out.1
  | Some err =>
      http.body w' = http.body out.1 ++ Error err ++ http.newline
      /\ (http.wroteHeader out.1 = false -> http.status w' = 500)
      /\ (http.wroteHeader out.1 = true ->
          http.status w' = http.status out.1
          /\ http.sent w' = http.sent out.1)
  end.
Proof.
  intros out w'. subst out w'. unfold renderTemplate.
  destruct (ExecuteTemplate w (tmpl ++ ".html") p) as [w1 [err|]];
    cbn [fst snd]; [|reflexivity].
  split; [|split].
  - unfold http.Error, http.Fprintln, http.Write, http.WriteHeader,
      http.Header_Set.
    cbn [http.wroteHeader http.status http.body http.sent http.header].
    destruct (http.wroteHeader w1);
      cbn [http.wroteHeader http.status http.body http.sent http.header];
      reflexivity.
  - intros Hw. apply (Error_unwritten w1 (Error err) 500 Hw).
  - intros Hw. unfold http.Error, http.Fprintln, http.Write,
      http.WriteHeader, http.Header_Set.
    cbn [http.wroteHeader http.status http.body http.sent http.header].
    rewrite Hw.
    cbn [http.wroteHeader http.status http.body http.sent http.header].
    rewrite ?Hw.
    cbn [http.wroteHeader http.status http.body http.sent http.header].
    split; reflexivity.
Qed.

End RedirectProperties.



Example renderTemplate_late_failure :
  let failing := fun (w : http.ResponseWriter) (_ : string) (_ : Page) =>
                   (http.Write "<h1>" w, Some (errorString "boom")) in
  let w' := renderTemplate failing http.newResponse "view"
              {| Title := "Foo"; Body := [] |} in
  http.status w' = 200 /\ http.body w' = "<h1>boom" ++ http.newline.
Proof. vm_compute. split; reflexivity. Qed.
